(** * A shallow embedding of [src/main.py] of mozio-api

    The module drives the Mozio v2 API: a search job polled until no more
    results are coming, a reservation job polled until its status leaves
    "pending", and a cancellation.  Every HTTP exchange is modelled by the
    server's answer to it; the program is a computation in a small monad
    that records the calls and log lines it emits (a writer) and can raise
    a Python exception (an error). *)

From Stdlib Require Import String Ascii List Arith Lia QArith.
Import ListNotations.
Open Scope nat_scope.
Open Scope string_scope.
Open Scope list_scope.

(** ** Data as the responses carry it *)

(** A search result; [float(vehicle["total_price"]["total_price"]["value"])]
    is the finite float [price], modelled as a rational. *)
Record Vehicle := mkVehicle {
  result_id : string;
  price : Q
}.

Record SearchResponse := mkSearchResponse { search_id : string }.

(** The body of one poll-search response: ["results"] and ["more_coming"]. *)
Record PollSearchResponse := mkPollSearchResponse {
  results : list Vehicle;
  more_coming : bool
}.

Record Reservation := mkReservation {
  confirmation_number : string;
  id : string
}.

(** The body of one poll-reservation response; [status] is [None] when the
    JSON object has no "status" key. *)
Record PollReservationResponse := mkPollReservationResponse {
  status : option string;
  reservations : list Reservation
}.

(** The opaque JSON body of a response that is only acknowledged. *)
Definition Body := string.

(** An HTTP answer: [response.ok] with a body [response.json()] decodes,
    [response.ok] with a body that is not JSON (an empty 204, say), an error
    status with a JSON body, or an error status with a body that is not
    JSON. *)
Inductive http (A : Type) :=
| HOk (body : A)
| HOkNotJson (text : string)
| HNotOk (err_body : Body)
| HNotOkNotJson (text : string).
Arguments HOk {A} body.
Arguments HOkNotJson {A} text.
Arguments HNotOk {A} err_body.
Arguments HNotOkNotJson {A} text.

(** The book payload of the workflow driver. *)
Record BookPayload := mkBookPayload {
  first_name : string;
  last_name : string;
  email : string;
  book_result_id : string;
  book_search_id : string
}.

(** The server, as the sequence of answers it gives: the poll endpoints are
    indexed by the loop counter of the request (1 for the first poll). *)
Record Server := mkServer {
  srv_search : http SearchResponse;
  srv_poll_search : nat -> http PollSearchResponse;
  srv_book : http Body;
  srv_poll_reservation : nat -> http PollReservationResponse;
  srv_cancel : http Body
}.

(** ** Effects: calls, sleeps, log lines and exceptions *)

Inductive event :=
| ESearch
| EPollSearch (sid : string)
| EBook (payload : BookPayload)
| EPollReservation (sid : string)
| ECancel (rid : string)
| ESleep (seconds : nat)
| LogSearchDone (counter : nat)
| LogReservationDone (counter : nat) (confirmation : string) (rid : string)
| LogReservationFailed (st : string)
| LogSkipCancel
| LogCancelDone
| LogCancelFailed.

(** The exceptions the module raises. *)
Inductive error :=
| EnvironmentVariableNotSet (msg : string)
| ApiError (body : Body)                 (* raise Exception(response.json()) *)
| PollLimitExceeded (limit : nat)        (* "... exceeded the limit of N." *)
| IndexError                             (* [...][0] on an empty list *)
| JSONDecodeError (text : string)        (* response.json() on a non-JSON body *)
| NoResults.                             (* "No results found ..." *)

Definition M (A : Type) : Type := ((error + A) * list event)%type.

Definition ret {A} (a : A) : M A := (inr a, []).
Definition raise {A} (e : error) : M A := (inl e, []).
Definition emit (e : event) : M unit := (inr tt, [e]).

Definition bind {A B} (m : M A) (k : A -> M B) : M B :=
  match m with
  | (inl e, t) => (inl e, t)
  | (inr a, t) => let (r, t') := k a in (r, app t t')
  end.

Notation "x <- m ;; k" := (bind m (fun x => k))
  (at level 61, m at next level, right associativity).
Notation "m ;;; k" := (bind m (fun _ => k))
  (at level 61, right associativity).

Definition result {A} (m : M A) : error + A := fst m.
Definition trace {A} (m : M A) : list event := snd m.

(** ** Python string helpers *)

(** [str.lower] on the ASCII strings the API returns. *)
Definition ascii_lower (c : ascii) : ascii :=
  let n := nat_of_ascii c in
  if Nat.leb 65 n && Nat.leb n 90 then ascii_of_nat (n + 32)%nat else c.

Fixpoint lower (s : string) : string :=
  match s with
  | EmptyString => EmptyString
  | String c s' => String (ascii_lower c) (lower s')
  end.

(** [str.rstrip("/")]. *)
Fixpoint drop_slashes (l : list ascii) : list ascii :=
  match l with
  | c :: l' => if Ascii.eqb c "/"%char then drop_slashes l' else l
  | [] => []
  end.

Definition rstrip_slash (s : string) : string :=
  string_of_list_ascii (rev (drop_slashes (rev (list_ascii_of_string s)))).

(** Python truthiness of an optional string ([os.getenv], [reservation_id]). *)
Definition truthy (s : option string) : bool :=
  match s with
  | Some v => negb (String.eqb v "")
  | None => false
  end.

(** ** MozioAPIClient *)

Definition POLL_MAX_REQUESTS : nat := 20.

(** The environment: [os.getenv("MOZIO_API_BASE_URL")] and
    [os.getenv("MOZIO_API_KEY")], read when the class is defined. *)
Record Config := mkConfig {
  MOZIO_API_BASE_URL : option string;
  MOZIO_API_KEY : option string
}.

Record MozioAPIClient := mkClient {
  base_url : string;
  api_key_header : string
}.

(** [MozioAPIClient.__init__]. *)
Definition MozioAPIClient_init (cfg : Config) : M MozioAPIClient :=
  if negb (truthy (MOZIO_API_BASE_URL cfg)) then
    raise (EnvironmentVariableNotSet
             "MOZIO_API_BASE_URL environment variable is not set.")
  else if negb (truthy (MOZIO_API_KEY cfg)) then
    raise (EnvironmentVariableNotSet
             "MOZIO_API_KEY environment variable is not set.")
  else
    ret (mkClient (rstrip_slash (match MOZIO_API_BASE_URL cfg with
                                 | Some u => u | None => "" end) ++ "/")%string
                  (match MOZIO_API_KEY cfg with Some k => k | None => "" end)).

(** One request: the call is made, then [if not response.ok: raise
    Exception(response.json())], else [response.json()]; decoding a body
    that is not JSON raises.  The URL is [self.base_url] followed by the
    path of the endpoint; the event records the argument that varies. *)
Definition request {A} (ev : event) (answer : http A) : M A :=
  emit ev ;;;
  match answer with
  | HOk b => ret b
  | HOkNotJson t => raise (JSONDecodeError t)
  | HNotOk e => raise (ApiError e)
  | HNotOkNotJson t => raise (JSONDecodeError t)
  end.

Definition search (self : MozioAPIClient) (srv : Server) : M SearchResponse :=
  request ESearch (srv_search srv).

Definition poll_search (self : MozioAPIClient) (srv : Server) (sid : string)
  (counter : nat) : M PollSearchResponse :=
  request (EPollSearch sid) (srv_poll_search srv counter).

Definition book (self : MozioAPIClient) (srv : Server) (payload : BookPayload)
  : M Body :=
  request (EBook payload) (srv_book srv).

Definition poll_reservation (self : MozioAPIClient) (srv : Server)
  (sid : string) (counter : nat) : M PollReservationResponse :=
  request (EPollReservation sid) (srv_poll_reservation srv counter).

(** [cancel]: returns [True] after a successful DELETE, without decoding
    its body; an error status raises as in the other requests. *)
Definition cancel (self : MozioAPIClient) (srv : Server) (rid : string)
  : M bool :=
  emit (ECancel rid) ;;;
  match srv_cancel srv with
  | HOk _ | HOkNotJson _ => ret true
  | HNotOk e => raise (ApiError e)
  | HNotOkNotJson t => raise (JSONDecodeError t)
  end.

(** The [for ... in range(counter, POLL_MAX_REQUESTS + 1)] loop of
    [search_and_gather_results]; [fuel] is the number of iterations left,
    and exhausting it is the [else: raise] branch. *)
Fixpoint search_poll_loop (self : MozioAPIClient) (srv : Server) (sid : string)
  (fuel counter : nat) (all_poll_results : list Vehicle) : M (list Vehicle) :=
  match fuel with
  | 0 => raise (PollLimitExceeded POLL_MAX_REQUESTS)
  | S fuel' =>
      r <- poll_search self srv sid counter ;;
      let all_poll_results := (all_poll_results ++ results r)%list in
      if negb (more_coming r) then
        emit (LogSearchDone counter) ;;; ret all_poll_results
      else
        emit (ESleep 2) ;;;
        search_poll_loop self srv sid fuel' (S counter) all_poll_results
  end.

Definition search_and_gather_results (self : MozioAPIClient) (srv : Server)
  : M (string * list Vehicle) :=
  search_response <- search self srv ;;
  let sid := search_id search_response in
  all <- search_poll_loop self srv sid POLL_MAX_REQUESTS 1 [] ;;
  ret (sid, all).

(** [poll_reservation_response.get("status", "").lower()]. *)
Definition poll_reservation_status (r : PollReservationResponse) : string :=
  lower (match status r with Some s => s | None => "" end).

(** The polling loop of [book_and_get_status]. *)
Fixpoint reservation_poll_loop (self : MozioAPIClient) (srv : Server)
  (sid : string) (fuel counter : nat) : M (option string) :=
  match fuel with
  | 0 => raise (PollLimitExceeded POLL_MAX_REQUESTS)
  | S fuel' =>
      r <- poll_reservation self srv sid counter ;;
      let st := poll_reservation_status r in
      if String.eqb st "pending" then
        emit (ESleep 2) ;;;
        reservation_poll_loop self srv sid fuel' (S counter)
      else if String.eqb st "completed" then
        match reservations r with
        | [] => raise IndexError
        | reservation :: _ =>
            emit (LogReservationDone counter
                    (confirmation_number reservation) (id reservation)) ;;;
            ret (Some (id reservation))
        end
      else
        emit (LogReservationFailed st) ;;; ret None
  end.

Definition book_and_get_status (self : MozioAPIClient) (srv : Server)
  (sid : string) (payload : BookPayload) : M (option string) :=
  _ <- book self srv payload ;;
  reservation_poll_loop self srv sid POLL_MAX_REQUESTS 1.

(** ** The workflow driver ([if __name__ == "__main__":]) *)

(** [x < y] on the float prices. *)
Definition Qltb (x y : Q) : bool := negb (Qle_bool y x).

(** Python's [min(xs, key=...)]: the first item is the running minimum and
    an item replaces it only when its key is strictly smaller; [None] is the
    [ValueError] of an empty sequence. *)
Definition min_by_price (xs : list Vehicle) : option Vehicle :=
  match xs with
  | [] => None
  | x :: rest =>
      Some (fold_left (fun best v => if Qltb (price v) (price best) then v
                                     else best) rest x)
  end.

(** The passenger identity drawn from [Faker]. *)
Record Passenger := mkPassenger {
  fake_first_name : string;
  fake_last_name : string;
  fake_email : string
}.

(** The part of the script up to and including [book_and_get_status]:
    its value is the [reservation_id] the script then tests. *)
Definition workflow_until_booking (cfg : Config) (srv : Server)
  (fake : Passenger) : M (MozioAPIClient * option string) :=
  mozio <- MozioAPIClient_init cfg ;;
  p <- search_and_gather_results mozio srv ;;
  let (sid, all_search_results) := p in
  match min_by_price all_search_results with
  | None => raise NoResults
  | Some cheapest_vehicle =>
      let book_payload :=
        mkBookPayload (fake_first_name fake) (fake_last_name fake)
          (fake_email fake) (result_id cheapest_vehicle) sid in
      reservation_id <- book_and_get_status mozio srv sid book_payload ;;
      ret (mozio, reservation_id)
  end.

(** The cancellation branch: [if not reservation_id: skip, else cancel]. *)
Definition cancellation_branch (mozio : MozioAPIClient) (srv : Server)
  (reservation_id : option string) : M unit :=
  match reservation_id with
  | Some rid =>
      if truthy reservation_id then
        has_been_cancelled <- cancel mozio srv rid ;;
        if has_been_cancelled then emit LogCancelDone
        else emit LogCancelFailed
      else emit LogSkipCancel
  | None => emit LogSkipCancel
  end.

Definition main (cfg : Config) (srv : Server) (fake : Passenger) : M unit :=
  p <- workflow_until_booking cfg srv fake ;;
  let (mozio, reservation_id) := p in
  cancellation_branch mozio srv reservation_id.

(** ** Counting calls in a trace *)

Definition is_cancel (e : event) : bool :=
  match e with ECancel _ => true | _ => false end.
Definition is_poll_search (e : event) : bool :=
  match e with EPollSearch _ => true | _ => false end.
Definition is_poll_reservation (e : event) : bool :=
  match e with EPollReservation _ => true | _ => false end.
Definition is_network (e : event) : bool :=
  match e with
  | ESearch | EPollSearch _ | EBook _ | EPollReservation _ | ECancel _ => true
  | _ => false
  end.

Definition count_calls (p : event -> bool) (t : list event) : nat :=
  length (filter p t).

(** ** Sample servers *)

Definition cfg_ok : Config := mkConfig (Some "https://api-testing.mozio.com/v2/") (Some "k").
Definition fake0 : Passenger := mkPassenger "Ada" "Lovelace" "ada@example.com".
Definition veh (n : string) (q : Q) : Vehicle := mkVehicle n q.

Definition res_server (polls : list PollReservationResponse) : Server :=
  mkServer (HOk (mkSearchResponse "s1"))
    (fun _ => HOk (mkPollSearchResponse [veh "r1" 10%Q] false))
    (HOk "{}")
    (fun i => HOk (nth (i - 1) polls (mkPollReservationResponse (Some "pending") [])))
    (HOk "").

(** ** Reasoning about the monad *)

Lemma bind_inr {A B} (a : A) (t : list event) (k : A -> M B) :
  bind (inr a, t) k = (result (k a), app t (trace (k a))).
Proof. unfold bind. destruct (k a); reflexivity. Qed.

Lemma bind_inl {A B} (e : error) (t : list event) (k : A -> M B) :
  bind (inl e, t) k = (inl e, t).
Proof. reflexivity. Qed.

Lemma bind_ret {A B} (a : A) (k : A -> M B) : bind (ret a) k = k a.
Proof. unfold bind, ret. destruct (k a); reflexivity. Qed.

Lemma bind_emit {B} (e : event) (k : unit -> M B) :
  bind (emit e) k = (result (k tt), e :: trace (k tt)).
Proof. unfold emit. rewrite bind_inr. reflexivity. Qed.

Lemma bind_assoc {A B C} (m : M A) (k : A -> M B) (h : B -> M C) :
  bind (bind m k) h = bind m (fun a => bind (k a) h).
Proof.
  destruct m as [[e|a] t]; [reflexivity|].
  rewrite bind_inr. unfold bind at 2. destruct (k a) as [[e|b] t']; cbn.
  - reflexivity.
  - destruct (h b) as [r t'']. rewrite app_assoc. reflexivity.
Qed.

Lemma request_ok {A} (ev : event) (b : A) :
  request ev (HOk b) = (inr b, [ev]).
Proof. reflexivity. Qed.

(** A property of every event of a computation, carried through [bind]. *)
Lemma Forall_trace_bind {A B} (P : event -> Prop) (m : M A) (k : A -> M B) :
  Forall P (trace m) ->
  (forall a, result m = inr a -> Forall P (trace (k a))) ->
  Forall P (trace (bind m k)).
Proof.
  destruct m as [[e|a] t]; intros Hm Hk; [exact Hm|].
  rewrite bind_inr. cbn. apply Forall_app. split; [exact Hm|]. apply Hk. reflexivity.
Qed.

Lemma count_calls_app p t1 t2 :
  count_calls p (app t1 t2) = count_calls p t1 + count_calls p t2.
Proof. unfold count_calls. rewrite filter_app, length_app. reflexivity. Qed.

Lemma count_calls_none (p : event -> bool) t :
  Forall (fun e => p e = false) t -> count_calls p t = 0.
Proof.
  induction 1 as [|e t He _ IH]; [reflexivity|].
  unfold count_calls in *. cbn. rewrite He. exact IH.
Qed.

(** ** The search polling loop *)

Definition more_pair (sid : string) (_ : nat) : list event :=
  [EPollSearch sid; ESleep 2].

Section SearchLoop.
Variables (self : MozioAPIClient) (srv : Server) (sid : string).
Variable f : nat -> PollSearchResponse.

(** [k] polls from [c] on that all answer with [more_coming] true. *)
Lemma search_loop_more_prefix (k : nat) : forall c fuel acc,
  (forall i, i < k -> srv_poll_search srv (c + i) = HOk (f (c + i)) /\
                      more_coming (f (c + i)) = true) ->
  k <= fuel ->
  search_poll_loop self srv sid fuel c acc =
    let m := search_poll_loop self srv sid (fuel - k) (c + k)
               (acc ++ concat (map (fun i => results (f i)) (seq c k))) in
    (result m, app (flat_map (more_pair sid) (seq c k)) (trace m)).
Proof.
  induction k as [|k IH]; intros c fuel acc Hk Hle.
  - cbn. rewrite Nat.sub_0_r, Nat.add_0_r, app_nil_r.
    destruct (search_poll_loop _ _ _ _ _ _); reflexivity.
  - destruct fuel as [|fuel]; [lia|].
    destruct (Hk 0 ltac:(lia)) as [Hp Hm]. rewrite Nat.add_0_r in Hp, Hm.
    cbn [search_poll_loop]. unfold poll_search. rewrite Hp, request_ok, bind_inr.
    rewrite Hm. cbn [negb]. rewrite bind_emit.
    rewrite (IH (S c) fuel).
    + cbn. rewrite <- !app_assoc. replace (c + S k) with (S c + k) by lia.
      reflexivity.
    + intros i Hi. replace (S c + i) with (c + S i) by lia. apply Hk. lia.
    + lia.
Qed.

(** The poll at counter [c] answers with [more_coming] false. *)
Lemma search_loop_stop c fuel acc :
  srv_poll_search srv c = HOk (f c) -> more_coming (f c) = false ->
  search_poll_loop self srv sid (S fuel) c acc =
    (inr (acc ++ results (f c)), [EPollSearch sid; LogSearchDone c]).
Proof.
  intros Hp Hm. cbn [search_poll_loop]. unfold poll_search.
  rewrite Hp, request_ok, bind_inr, Hm. reflexivity.
Qed.
End SearchLoop.

(** ** The reservation polling loop *)

Definition pending_pair (sid : string) (_ : nat) : list event :=
  [EPollReservation sid; ESleep 2].

Section ReservationLoop.
Variables (self : MozioAPIClient) (srv : Server) (sid : string).

(** [k] polls from [c] on whose status is "pending" once lowercased. *)
Lemma reservation_loop_pending_prefix (k : nat) : forall c fuel,
  (forall i, i < k -> exists r, srv_poll_reservation srv (c + i) = HOk r /\
                      poll_reservation_status r = "pending") ->
  k <= fuel ->
  reservation_poll_loop self srv sid fuel c =
    let m := reservation_poll_loop self srv sid (fuel - k) (c + k) in
    (result m, app (flat_map (pending_pair sid) (seq c k)) (trace m)).
Proof.
  induction k as [|k IH]; intros c fuel Hk Hle.
  - cbn. rewrite Nat.sub_0_r, Nat.add_0_r.
    destruct (reservation_poll_loop _ _ _ _ _); reflexivity.
  - destruct fuel as [|fuel]; [lia|].
    destruct (Hk 0 ltac:(lia)) as [r [Hp Hs]]. rewrite Nat.add_0_r in Hp.
    cbn [reservation_poll_loop]. unfold poll_reservation.
    rewrite Hp, request_ok, bind_inr. cbn zeta. rewrite Hs. cbn [String.eqb Ascii.eqb Bool.eqb].
    rewrite bind_emit.
    rewrite (IH (S c) fuel).
    + cbn. replace (c + S k) with (S c + k) by lia. reflexivity.
    + intros i Hi. replace (S c + i) with (c + S i) by lia. apply Hk. lia.
    + lia.
Qed.

Lemma reservation_loop_completed c fuel r res rest :
  srv_poll_reservation srv c = HOk r ->
  poll_reservation_status r = "completed" ->
  reservations r = res :: rest ->
  reservation_poll_loop self srv sid (S fuel) c =
    (inr (Some (id res)),
     [EPollReservation sid;
      LogReservationDone c (confirmation_number res) (id res)]).
Proof.
  intros Hp Hs Hr. cbn [reservation_poll_loop]. unfold poll_reservation.
  rewrite Hp, request_ok, bind_inr. cbn zeta. rewrite Hs, Hr. reflexivity.
Qed.

Lemma reservation_loop_completed_empty c fuel r :
  srv_poll_reservation srv c = HOk r ->
  poll_reservation_status r = "completed" ->
  reservations r = [] ->
  reservation_poll_loop self srv sid (S fuel) c =
    (inl IndexError, [EPollReservation sid]).
Proof.
  intros Hp Hs Hr. cbn [reservation_poll_loop]. unfold poll_reservation.
  rewrite Hp, request_ok, bind_inr. cbn zeta. rewrite Hs, Hr. reflexivity.
Qed.

Lemma reservation_loop_other c fuel r :
  srv_poll_reservation srv c = HOk r ->
  poll_reservation_status r <> "pending" ->
  poll_reservation_status r <> "completed" ->
  reservation_poll_loop self srv sid (S fuel) c =
    (inr None,
     [EPollReservation sid; LogReservationFailed (poll_reservation_status r)]).
Proof.
  intros Hp Hs1 Hs2. cbn [reservation_poll_loop]. unfold poll_reservation.
  rewrite Hp, request_ok, bind_inr. cbn zeta.
  apply String.eqb_neq in Hs1, Hs2. rewrite Hs1, Hs2. reflexivity.
Qed.
End ReservationLoop.

(** ** Claims on the polling loops *)

Definition poll_search_body (srv : Server) (i : nat) : PollSearchResponse :=
  match srv_poll_search srv i with
  | HOk r => r
  | _ => mkPollSearchResponse [] false
  end.

(** C2: when [more_coming] is true on polls 1..20 (and the status is
    "pending" on reservation polls 1..20), each loop polls exactly 20 times
    and then raises its "exceeded the limit of 20" exception. *)
Theorem poll_budget_respected_exactly (self : MozioAPIClient) (srv : Server)
  (sr : SearchResponse) (sid : string) (payload : BookPayload) (b : Body)
  (Hsearch : srv_search srv = HOk sr)
  (Hmore : forall i, 1 <= i <= 20 -> exists r,
      srv_poll_search srv i = HOk r /\ more_coming r = true)
  (Hbook : srv_book srv = HOk b)
  (Hpending : forall i, 1 <= i <= 20 -> exists r,
      srv_poll_reservation srv i = HOk r /\ poll_reservation_status r = "pending") :
  result (search_and_gather_results self srv) = inl (PollLimitExceeded 20) /\
  count_calls is_poll_search (trace (search_and_gather_results self srv)) = 20 /\
  result (book_and_get_status self srv sid payload) = inl (PollLimitExceeded 20) /\
  count_calls is_poll_reservation
    (trace (book_and_get_status self srv sid payload)) = 20.
Proof.
  assert (Hs : search_and_gather_results self srv =
            (inl (PollLimitExceeded 20),
             ESearch :: flat_map (more_pair (search_id sr)) (seq 1 20))).
  { unfold search_and_gather_results, search. rewrite Hsearch, request_ok, bind_inr.
    cbn zeta. unfold POLL_MAX_REQUESTS.
    rewrite (search_loop_more_prefix self srv (search_id sr) (poll_search_body srv) 20).
    - reflexivity.
    - intros i Hi. destruct (Hmore (1 + i) ltac:(lia)) as [r [Hp Hm]].
      unfold poll_search_body. rewrite Hp. auto.
    - lia. }
  assert (Hr : book_and_get_status self srv sid payload =
            (inl (PollLimitExceeded 20),
             EBook payload :: flat_map (pending_pair sid) (seq 1 20))).
  { unfold book_and_get_status, book. rewrite Hbook, request_ok, bind_inr.
    unfold POLL_MAX_REQUESTS.
    rewrite (reservation_loop_pending_prefix self srv sid 20).
    - reflexivity.
    - intros i Hi. apply Hpending. lia.
    - lia. }
  rewrite Hs, Hr. repeat split; reflexivity.
Qed.

(** C3: with [more_coming] true on polls 1..k and false on poll k+1 <= 20,
    [search_and_gather_results] returns the search id with the results of
    the k+1 polls concatenated in order, polls exactly k+1 times and
    reports the counter k+1. *)
Theorem search_gathers_all_results (self : MozioAPIClient) (srv : Server)
  (sr : SearchResponse) (f : nat -> PollSearchResponse) (k : nat)
  (Hsearch : srv_search srv = HOk sr)
  (Hpolls : forall i, 1 <= i <= k + 1 -> srv_poll_search srv i = HOk (f i))
  (Hmore : forall i, 1 <= i <= k -> more_coming (f i) = true)
  (Hlast : more_coming (f (k + 1)) = false)
  (Hk : k + 1 <= 20) :
  search_and_gather_results self srv =
    (inr (search_id sr, concat (map (fun i => results (f i)) (seq 1 (k + 1)))),
     ESearch :: flat_map (more_pair (search_id sr)) (seq 1 k) ++
       [EPollSearch (search_id sr); LogSearchDone (k + 1)]) /\
  count_calls is_poll_search (trace (search_and_gather_results self srv)) = k + 1.
Proof.
  assert (Heq : search_and_gather_results self srv =
    (inr (search_id sr, concat (map (fun i => results (f i)) (seq 1 (k + 1)))),
     ESearch :: flat_map (more_pair (search_id sr)) (seq 1 k) ++
       [EPollSearch (search_id sr); LogSearchDone (k + 1)])).
  { unfold search_and_gather_results, search. rewrite Hsearch, request_ok, bind_inr.
    cbn zeta. unfold POLL_MAX_REQUESTS.
    rewrite (search_loop_more_prefix self srv (search_id sr) f k).
    - replace (20 - k) with (S (19 - k)) by lia.
      rewrite (search_loop_stop self srv (search_id sr) f).
      + replace (k + 1) with (S k) by lia. rewrite seq_S, map_app, concat_app.
        cbn. rewrite !app_nil_r. replace (1 + k) with (S k) by lia. reflexivity.
      + apply Hpolls. lia.
      + replace (1 + k) with (k + 1) by lia. exact Hlast.
    - intros i Hi. split; [apply Hpolls | apply Hmore]; lia.
    - lia. }
  split; [exact Heq|]. rewrite Heq. cbn [trace snd].
  unfold count_calls. cbn [filter is_poll_search length].
  rewrite filter_app, length_app. cbn.
  assert (Hc : forall s c n, length (filter is_poll_search
                                (flat_map (more_pair s) (seq c n))) = n).
  { intros s c n. revert c. induction n as [|n IH]; intros c; [reflexivity|].
    cbn. f_equal. apply IH. }
  rewrite Hc. lia.
Qed.

(** ** Claims on [book_and_get_status] *)

Lemma book_pending_prefix self srv sid payload b k :
  srv_book srv = HOk b ->
  (forall i, 1 <= i <= k -> exists r, srv_poll_reservation srv i = HOk r /\
                           poll_reservation_status r = "pending") ->
  k <= 20 ->
  book_and_get_status self srv sid payload =
    let m := reservation_poll_loop self srv sid (20 - k) (S k) in
    (result m, EBook payload :: flat_map (pending_pair sid) (seq 1 k) ++ trace m).
Proof.
  intros Hb Hp Hk. unfold book_and_get_status, book.
  rewrite Hb, request_ok, bind_inr. unfold POLL_MAX_REQUESTS.
  rewrite (reservation_loop_pending_prefix self srv sid k 1 20).
  - reflexivity.
  - intros i Hi. apply Hp. lia.
  - exact Hk.
Qed.

(** Two answers to a poll-reservation request that the code cannot tell
    apart: the same lowercased status and the same reservations. *)
Definition same_reservation_answer (a1 a2 : http PollReservationResponse) : Prop :=
  match a1, a2 with
  | HOk r1, HOk r2 => poll_reservation_status r1 = poll_reservation_status r2 /\
                      reservations r1 = reservations r2
  | HOkNotJson t1, HOkNotJson t2 => t1 = t2
  | HNotOk e1, HNotOk e2 => e1 = e2
  | HNotOkNotJson t1, HNotOkNotJson t2 => t1 = t2
  | _, _ => False
  end.

Lemma reservation_loop_equiv self srv1 srv2 sid :
  (forall i, same_reservation_answer (srv_poll_reservation srv1 i)
                                     (srv_poll_reservation srv2 i)) ->
  forall fuel c, reservation_poll_loop self srv1 sid fuel c =
                 reservation_poll_loop self srv2 sid fuel c.
Proof.
  intros Heq fuel. induction fuel as [|fuel IH]; intros c; [reflexivity|].
  cbn [reservation_poll_loop]. unfold poll_reservation.
  specialize (Heq c). unfold same_reservation_answer in Heq.
  destruct (srv_poll_reservation srv1 c) as [r1|t1|e1|t1];
    destruct (srv_poll_reservation srv2 c) as [r2|t2|e2|t2]; try contradiction;
    try (subst; reflexivity).
  destruct Heq as [Hs Hr]. rewrite !request_ok, !bind_inr. cbn zeta.
  rewrite Hs, Hr, IH. reflexivity.
Qed.

Definition poll_status (s : option string) (rs : list Reservation)
  : PollReservationResponse := mkPollReservationResponse s rs.

(** C1 (corrected): after k "pending" polls (k < 20), a "completed" answer
    with an empty [reservations] list makes [book_and_get_status] raise the
    [IndexError] of [["reservations"][0]]; no other error is designated. *)
Theorem completed_empty_raises_index_error self srv sid payload b k
  (g : nat -> PollReservationResponse)
  (Hbook : srv_book srv = HOk b)
  (Hpolls : forall i, 1 <= i <= k + 1 -> srv_poll_reservation srv i = HOk (g i))
  (Hpend : forall i, 1 <= i <= k -> poll_reservation_status (g i) = "pending")
  (Hcompleted : poll_reservation_status (g (k + 1)) = "completed")
  (Hempty : reservations (g (k + 1)) = [])
  (Hk : k + 1 <= 20) :
  book_and_get_status self srv sid payload =
    (inl IndexError,
     EBook payload :: flat_map (pending_pair sid) (seq 1 k) ++ [EPollReservation sid]).
Proof.
  rewrite (book_pending_prefix self srv sid payload b k Hbook).
  - replace (20 - k) with (S (19 - k)) by lia.
    rewrite (reservation_loop_completed_empty self srv sid (S k) (19 - k) (g (k + 1))).
    + reflexivity.
    + replace (S k) with (k + 1) by lia. apply Hpolls. lia.
    + exact Hcompleted.
    + exact Hempty.
  - intros i Hi. exists (g i). split; [apply Hpolls; lia | apply Hpend; lia].
  - lia.
Qed.

(** C1 counterexample: on a first poll "completed" with no reservations the
    script ends with the uncaught [IndexError] of the subscript, not with an
    error designated for an empty reservation list. *)
Lemma completed_empty_crashes_main :
  result (main cfg_ok (res_server [poll_status (Some "completed") []]) fake0)
    = inl IndexError.
Proof. reflexivity. Qed.

(** C5 (corrected): the loop classifies the lowercased status (a missing
    status counts as ""): after k "pending" polls, each followed by a sleep,
    poll k+1 <= 20 ends the loop.  "completed" with a non-empty
    [reservations] list returns the [id] of its first entry and logs that
    entry's confirmation number; any other lowercased status returns [None]
    at once, with no further poll and no error. *)
Theorem reservation_outcome_by_status self srv sid payload b k
  (g : nat -> PollReservationResponse)
  (Hbook : srv_book srv = HOk b)
  (Hpolls : forall i, 1 <= i <= k + 1 -> srv_poll_reservation srv i = HOk (g i))
  (Hpend : forall i, 1 <= i <= k -> poll_reservation_status (g i) = "pending")
  (Hk : k + 1 <= 20) :
  (forall res rest,
      poll_reservation_status (g (k + 1)) = "completed" ->
      reservations (g (k + 1)) = res :: rest ->
      book_and_get_status self srv sid payload =
        (inr (Some (id res)),
         EBook payload :: flat_map (pending_pair sid) (seq 1 k) ++
           [EPollReservation sid;
            LogReservationDone (k + 1) (confirmation_number res) (id res)])) /\
  (poll_reservation_status (g (k + 1)) <> "pending" ->
   poll_reservation_status (g (k + 1)) <> "completed" ->
   book_and_get_status self srv sid payload =
     (inr None,
      EBook payload :: flat_map (pending_pair sid) (seq 1 k) ++
        [EPollReservation sid;
         LogReservationFailed (poll_reservation_status (g (k + 1)))])).
Proof.
  rewrite (book_pending_prefix self srv sid payload b k Hbook).
  - replace (20 - k) with (S (19 - k)) by lia.
    assert (Hlast : srv_poll_reservation srv (S k) = HOk (g (k + 1))).
    { replace (S k) with (k + 1) by lia. apply Hpolls. lia. }
    split.
    + intros res rest Hs Hr.
      rewrite (reservation_loop_completed self srv sid (S k) (19 - k)
                 (g (k + 1)) res rest Hlast Hs Hr).
      cbn. replace (S k) with (k + 1) by lia. reflexivity.
    + intros Hs1 Hs2.
      rewrite (reservation_loop_other self srv sid (S k) (19 - k)
                 (g (k + 1)) Hlast Hs1 Hs2).
      reflexivity.
  - intros i Hi. exists (g i). split; [apply Hpolls; lia | apply Hpend; lia].
  - lia.
Qed.

Definition sample_client : MozioAPIClient :=
  mkClient "https://api-testing.mozio.com/v2/" "k".
Definition sample_payload : BookPayload :=
  mkBookPayload "Ada" "Lovelace" "ada@example.com" "r1" "s1".

(** C5 counterexample: a first status "PENDING", which is not the string
    "pending", does not end the loop with [None]: the code keeps polling and
    the "completed" second poll yields the reservation id. *)
Lemma pending_uppercase_keeps_polling :
  result (book_and_get_status sample_client
            (res_server [poll_status (Some "PENDING") [];
                         poll_status (Some "completed") [mkReservation "C1" "R1"]])
            "s1" sample_payload) = inr (Some "R1").
Proof. reflexivity. Qed.

(** C10: the status is matched case-insensitively: two servers whose
    reservation polls differ only in the case of the status give the same
    run; "Completed" and "PENDING" lowercase to "completed" and "pending";
    after k "pending" polls, an answer with no "status" key (at any poll
    k+1 <= 20) ends the loop with [None] at that poll, logging the
    status "". *)
Theorem reservation_status_case_insensitive :
  (forall self srv1 srv2 sid payload,
      srv_book srv1 = srv_book srv2 ->
      (forall i, same_reservation_answer (srv_poll_reservation srv1 i)
                                         (srv_poll_reservation srv2 i)) ->
      book_and_get_status self srv1 sid payload =
        book_and_get_status self srv2 sid payload) /\
  lower "Completed" = "completed" /\ lower "PENDING" = "pending" /\
  (forall self srv sid payload b k (g : nat -> PollReservationResponse),
      srv_book srv = HOk b ->
      (forall i, 1 <= i <= k + 1 -> srv_poll_reservation srv i = HOk (g i)) ->
      (forall i, 1 <= i <= k -> poll_reservation_status (g i) = "pending") ->
      status (g (k + 1)) = None ->
      k + 1 <= 20 ->
      book_and_get_status self srv sid payload =
        (inr None,
         EBook payload :: flat_map (pending_pair sid) (seq 1 k) ++
           [EPollReservation sid; LogReservationFailed ""])).
Proof.
  split; [|split; [reflexivity|split; [reflexivity|]]].
  - intros self srv1 srv2 sid payload Hb Heq. unfold book_and_get_status, book.
    rewrite Hb. destruct (srv_book srv2); try reflexivity.
    rewrite !request_ok, !bind_inr. rewrite (reservation_loop_equiv self srv1 srv2 sid Heq).
    reflexivity.
  - intros self srv sid payload b k g Hb Hp Hpend Hs Hk.
    rewrite (book_pending_prefix self srv sid payload b k Hb).
    + assert (Hst : poll_reservation_status (g (k + 1)) = "").
      { unfold poll_reservation_status. rewrite Hs. reflexivity. }
      replace (20 - k) with (S (19 - k)) by lia.
      rewrite (reservation_loop_other self srv sid (S k) (19 - k) (g (k + 1)));
        rewrite ?Hst; try discriminate.
      * reflexivity.
      * replace (S k) with (k + 1) by lia. apply Hp. lia.
    + intros i Hi. exists (g i). split; [apply Hp; lia | apply Hpend; lia].
    + lia.
Qed.

(** C8 (corrected): a successful book response whose body decodes as JSON
    does not influence [book_and_get_status]: with the same reservation
    polls the runs agree.  A successful book response whose body is not
    JSON makes [book]'s [response.json()] raise a JSON decode error before
    any reservation poll. *)
Theorem book_body_ignored :
  (forall self srv1 srv2 sid payload b1 b2,
      srv_book srv1 = HOk b1 -> srv_book srv2 = HOk b2 ->
      (forall i, srv_poll_reservation srv1 i = srv_poll_reservation srv2 i) ->
      book_and_get_status self srv1 sid payload =
        book_and_get_status self srv2 sid payload) /\
  (forall self srv sid payload t,
      srv_book srv = HOkNotJson t ->
      book_and_get_status self srv sid payload =
        (inl (JSONDecodeError t), [EBook payload])).
Proof.
  split.
  - intros self srv1 srv2 sid payload b1 b2 Hb1 Hb2 Hpolls.
    unfold book_and_get_status, book. rewrite Hb1, Hb2, !request_ok, !bind_inr.
    rewrite (reservation_loop_equiv self srv1 srv2 sid).
    + reflexivity.
    + intros i. rewrite Hpolls. unfold same_reservation_answer.
      destruct (srv_poll_reservation srv2 i); auto.
  - intros self srv sid payload t Hb.
    unfold book_and_get_status, book. rewrite Hb. reflexivity.
Qed.

(** ** The workflow driver: events before the cancellation branch *)

Definition before_cancel (e : event) : Prop :=
  match e with
  | ECancel _ | LogCancelDone | LogCancelFailed | LogSkipCancel => False
  | _ => True
  end.

Lemma Forall_request {A} P (ev : event) (a : http A) :
  P ev -> Forall P (trace (request ev a)).
Proof.
  intros H. unfold request. destruct a; unfold emit; rewrite bind_inr;
    cbn; repeat constructor; exact H.
Qed.

Lemma search_loop_before_cancel self srv sid :
  forall fuel c acc, Forall before_cancel
                       (trace (search_poll_loop self srv sid fuel c acc)).
Proof.
  induction fuel as [|fuel IH]; intros c acc; [constructor|].
  cbn [search_poll_loop]. apply Forall_trace_bind.
  - apply Forall_request. exact I.
  - intros r _. destruct (negb (more_coming r)); unfold emit; rewrite bind_inr;
      cbn; constructor; auto; exact I.
Qed.

Lemma reservation_loop_before_cancel self srv sid :
  forall fuel c, Forall before_cancel
                   (trace (reservation_poll_loop self srv sid fuel c)).
Proof.
  induction fuel as [|fuel IH]; intros c; [constructor|].
  cbn [reservation_poll_loop]. apply Forall_trace_bind.
  - apply Forall_request. exact I.
  - intros r _. cbn zeta.
    destruct (String.eqb (poll_reservation_status r) "pending").
    + unfold emit. rewrite bind_inr. cbn. constructor; auto. exact I.
    + destruct (String.eqb (poll_reservation_status r) "completed").
      * destruct (reservations r); [constructor|].
        unfold emit. rewrite bind_inr. cbn. repeat constructor.
      * unfold emit. rewrite bind_inr. cbn. repeat constructor.
Qed.

Lemma workflow_until_booking_before_cancel cfg srv fake :
  Forall before_cancel (trace (workflow_until_booking cfg srv fake)).
Proof.
  unfold workflow_until_booking. apply Forall_trace_bind.
  - unfold MozioAPIClient_init.
    destruct (truthy (MOZIO_API_BASE_URL cfg)), (truthy (MOZIO_API_KEY cfg));
      constructor.
  - intros mozio _. apply Forall_trace_bind.
    + unfold search_and_gather_results. apply Forall_trace_bind.
      * apply Forall_request. exact I.
      * intros sr _. apply Forall_trace_bind.
        -- apply search_loop_before_cancel.
        -- intros; constructor.
    + intros [sid all] _. destruct (min_by_price all) as [v|]; [|constructor].
      apply Forall_trace_bind.
      * unfold book_and_get_status. apply Forall_trace_bind.
        -- apply Forall_request. exact I.
        -- intros; apply reservation_loop_before_cancel.
      * intros; constructor.
Qed.

(** [main] is the run up to the booking, then the cancellation branch. *)
Lemma main_split cfg srv fake :
  trace (main cfg srv fake) =
    trace (workflow_until_booking cfg srv fake) ++
    match result (workflow_until_booking cfg srv fake) with
    | inr (mozio, rid) => trace (cancellation_branch mozio srv rid)
    | inl _ => []
    end.
Proof.
  unfold main. destruct (workflow_until_booking cfg srv fake) as [[e|[mozio rid]] t].
  - cbn. rewrite app_nil_r. reflexivity.
  - rewrite bind_inr. reflexivity.
Qed.

Lemma cancel_result self srv rid :
  result (cancel self srv rid) =
    match srv_cancel srv with
    | HOk _ | HOkNotJson _ => inr true
    | HNotOk e => inl (ApiError e)
    | HNotOkNotJson t => inl (JSONDecodeError t)
    end
  /\ trace (cancel self srv rid) = [ECancel rid].
Proof. unfold cancel. destruct (srv_cancel srv); split; reflexivity. Qed.

(** ** Claims on the workflow driver *)

(** C6 (corrected): the cancel endpoint is called once when the
    [reservation_id] returned by [book_and_get_status] is truthy (present
    and non-empty) and never otherwise. *)
Theorem cancel_called_iff_reservation_id cfg srv fake :
  count_calls is_cancel (trace (main cfg srv fake)) =
    match result (workflow_until_booking cfg srv fake) with
    | inr (_, rid) => if truthy rid then 1 else 0
    | inl _ => 0
    end.
Proof.
  rewrite main_split, count_calls_app.
  rewrite (count_calls_none is_cancel (trace (workflow_until_booking cfg srv fake))).
  - destruct (result (workflow_until_booking cfg srv fake)) as [e|[mozio rid]];
      [reflexivity|].
    cbn [Nat.add]. unfold cancellation_branch.
    destruct rid as [r|]; [|reflexivity].
    destruct (truthy (Some r)); [|reflexivity].
    destruct (cancel_result mozio srv r) as [Hr Ht].
    destruct (cancel mozio srv r) as [[e|bc] t]; cbn in Hr, Ht; subst t.
    + reflexivity.
    + rewrite bind_inr. cbn.
      destruct bc; reflexivity.
  - eapply Forall_impl; [|apply workflow_until_booking_before_cancel].
    intros [] H; cbn in *; tauto.
Qed.

(** C6 counterexample: a completed reservation whose id is "" is returned
    by [book_and_get_status] as [Some ""], yet the cancel endpoint is not
    called. *)
Lemma empty_reservation_id_skips_cancel :
  result (workflow_until_booking cfg_ok
            (res_server [poll_status (Some "completed") [mkReservation "C1" ""]]) fake0)
    = inr (sample_client, Some "") /\
  count_calls is_cancel
    (trace (main cfg_ok
              (res_server [poll_status (Some "completed") [mkReservation "C1" ""]]) fake0))
    = 0.
Proof. split; reflexivity. Qed.

(** C7: with [MOZIO_API_BASE_URL] or [MOZIO_API_KEY] unset or empty, the
    client constructor raises [EnvironmentVariableNotSet] and the script
    makes no HTTP call at all. *)
Theorem missing_config_fails_before_network cfg srv fake
  (Hmissing : truthy (MOZIO_API_BASE_URL cfg) = false \/
              truthy (MOZIO_API_KEY cfg) = false) :
  (exists msg, MozioAPIClient_init cfg = (inl (EnvironmentVariableNotSet msg), []) /\
               result (main cfg srv fake) = inl (EnvironmentVariableNotSet msg)) /\
  count_calls is_network (trace (main cfg srv fake)) = 0.
Proof.
  assert (Hinit : exists msg,
             MozioAPIClient_init cfg = (inl (EnvironmentVariableNotSet msg), [])).
  { unfold MozioAPIClient_init.
    destruct Hmissing as [H|H]; rewrite H; cbn.
    - eexists; reflexivity.
    - destruct (truthy (MOZIO_API_BASE_URL cfg)); eexists; reflexivity. }
  destruct Hinit as [msg Hinit].
  assert (Hmain : main cfg srv fake = (inl (EnvironmentVariableNotSet msg), [])).
  { unfold main, workflow_until_booking. rewrite Hinit. reflexivity. }
  rewrite Hmain. split; [|reflexivity]. exists msg. split; [exact Hinit|reflexivity].
Qed.

(** C9: [cancel] only ever returns [True] (a failed DELETE raises), so the
    "Failed" line of the cancellation branch is never printed. *)
Theorem cancel_never_returns_false :
  (forall self srv rid b, result (cancel self srv rid) = inr b -> b = true) /\
  (forall cfg srv fake, ~ In LogCancelFailed (trace (main cfg srv fake))).
Proof.
  split.
  - intros self srv rid b H. destruct (cancel_result self srv rid) as [Hr _].
    rewrite Hr in H. destruct (srv_cancel srv); congruence.
  - intros cfg srv fake Hin. rewrite main_split in Hin.
    apply in_app_or in Hin as [Hin|Hin].
    + pose proof (workflow_until_booking_before_cancel cfg srv fake) as HF.
      rewrite Forall_forall in HF. exact (HF _ Hin).
    + destruct (result (workflow_until_booking cfg srv fake)) as [e|[mozio rid]];
        [exact Hin|].
      unfold cancellation_branch in Hin.
      destruct rid as [r|]; [|cbn in Hin; intuition discriminate].
      destruct (truthy (Some r)); [|cbn in Hin; intuition discriminate].
      destruct (cancel_result mozio srv r) as [Hr Ht].
      destruct (cancel mozio srv r) as [[e|bc] t]; cbn in Hr, Ht; subst t.
      * cbn in Hin. intuition discriminate.
      * destruct (srv_cancel srv); try discriminate; injection Hr as Hbc; subst bc;
          rewrite bind_inr in Hin; cbn in Hin; intuition discriminate.
Qed.

(** ** Choosing the cheapest vehicle *)

Lemma Qltb_spec x y : Qltb x y = true <-> (x < y)%Q.
Proof.
  unfold Qltb. rewrite Bool.negb_true_iff. split.
  - intros H. apply Qnot_le_lt. intros Hle. apply Qle_bool_iff in Hle. congruence.
  - intros H. destruct (Qle_bool y x) eqn:E; [|reflexivity].
    apply Qle_bool_iff in E. exfalso. exact (Qlt_not_le _ _ H E).
Qed.

Definition min_step (best v : Vehicle) : Vehicle :=
  if Qltb (price v) (price best) then v else best.

(** The running minimum of [min]: everything seen before it is strictly
    dearer, everything seen after it is at least as dear. *)
Lemma fold_min_split rest : forall best pre mid,
  Forall (fun w => (price best < price w)%Q) pre ->
  Forall (fun w => (price best <= price w)%Q) mid ->
  exists pre' post',
    pre ++ best :: mid ++ rest = pre' ++ fold_left min_step rest best :: post' /\
    Forall (fun w => (price (fold_left min_step rest best) < price w)%Q) pre' /\
    Forall (fun w => (price (fold_left min_step rest best) <= price w)%Q) post'.
Proof.
  induction rest as [|y rest IH]; intros best pre mid Hpre Hmid.
  - exists pre, mid. rewrite app_nil_r. auto.
  - cbn [fold_left].
    replace (min_step best y) with
      (if Qltb (price y) (price best) then y else best) by reflexivity.
    destruct (Qltb (price y) (price best)) eqn:Hlt; cbv beta iota.
    + apply Qltb_spec in Hlt.
      destruct (IH y (pre ++ best :: mid) [] ) as [pre' [post' [Heq [H1 H2]]]].
      * apply Forall_app. split.
        -- eapply Forall_impl; [|exact Hpre]. intros w Hw. eapply Qlt_trans; eauto.
        -- constructor; [exact Hlt|].
           eapply Forall_impl; [|exact Hmid]. intros w Hw. eapply Qlt_le_trans; eauto.
      * constructor.
      * exists pre', post'. split; [|split; assumption]. rewrite <- Heq.
        rewrite <- app_assoc. reflexivity.
    + assert (Hle : (price best <= price y)%Q).
      { apply Qnot_lt_le. intros H. apply Qltb_spec in H. congruence. }
      destruct (IH best pre (mid ++ [y])) as [pre' [post' [Heq [H1 H2]]]].
      * exact Hpre.
      * apply Forall_app. auto.
      * exists pre', post'. split; [|split; assumption]. rewrite <- Heq.
        rewrite <- app_assoc. reflexivity.
Qed.

Definition price_samples : list Vehicle :=
  [veh "a" 30%Q; veh "b" 10%Q; veh "c" 10%Q; veh "d" 20%Q].

(** C4: on a non-empty list, [min(..., key=price)] picks a vehicle whose
    price is minimal and which comes before every other vehicle of that
    price: all vehicles before it are strictly dearer, all after it at
    least as dear.  On the prices [30; 10; 10; 20] it picks index 1. *)
Theorem cheapest_is_first_minimum :
  (forall xs, xs <> [] ->
     exists pre v post,
       min_by_price xs = Some v /\ xs = pre ++ v :: post /\
       Forall (fun w => (price v < price w)%Q) pre /\
       Forall (fun w => (price v <= price w)%Q) post) /\
  min_by_price price_samples = nth_error price_samples 1.
Proof.
  split; [|reflexivity].
  intros [|x rest] Hne; [congruence|].
  destruct (fold_min_split rest x [] [] (Forall_nil _) (Forall_nil _))
    as [pre [post [Heq [H1 H2]]]].
  exists pre, (fold_left min_step rest x), post. split; [reflexivity|].
  split; [exact Heq|]. auto.
Qed.

(** ** Witnesses: the claims' theorems at concrete servers *)

Definition srv_forever : Server :=
  mkServer (HOk (mkSearchResponse "s1"))
    (fun _ => HOk (mkPollSearchResponse [veh "r1" 10%Q] true))
    (HOk "{}")
    (fun _ => HOk (poll_status (Some "pending") []))
    (HOk "").

Lemma poll_budget_respected_exactly_witness :
  result (search_and_gather_results sample_client srv_forever)
    = inl (PollLimitExceeded 20) /\
  count_calls is_poll_search
    (trace (search_and_gather_results sample_client srv_forever)) = 20 /\
  result (book_and_get_status sample_client srv_forever "s1" sample_payload)
    = inl (PollLimitExceeded 20) /\
  count_calls is_poll_reservation
    (trace (book_and_get_status sample_client srv_forever "s1" sample_payload)) = 20.
Proof.
  apply (poll_budget_respected_exactly sample_client srv_forever
           (mkSearchResponse "s1") "s1" sample_payload "{}").
  - reflexivity.
  - intros i _. eexists. split; reflexivity.
  - reflexivity.
  - intros i _. eexists. split; reflexivity.
Defined.

Definition three_polls (i : nat) : PollSearchResponse :=
  mkPollSearchResponse [veh "r" (inject_Z (Z.of_nat i))] (Nat.ltb i 3).

Definition srv_three : Server :=
  mkServer (HOk (mkSearchResponse "s1")) (fun i => HOk (three_polls i))
    (HOk "{}") (fun _ => HOk (poll_status (Some "failed") [])) (HOk "").

Lemma search_gathers_all_results_witness :
  search_and_gather_results sample_client srv_three =
    (inr ("s1", concat (map (fun i => results (three_polls i)) (seq 1 3))),
     ESearch :: flat_map (more_pair "s1") (seq 1 2) ++
       [EPollSearch "s1"; LogSearchDone 3]) /\
  count_calls is_poll_search
    (trace (search_and_gather_results sample_client srv_three)) = 3.
Proof.
  apply (search_gathers_all_results sample_client srv_three
           (mkSearchResponse "s1") three_polls 2).
  - reflexivity.
  - intros i _. reflexivity.
  - intros i Hi. unfold three_polls. cbn [more_coming]. apply Nat.ltb_lt. lia.
  - reflexivity.
  - lia.
Defined.

Definition pending_then (last : PollReservationResponse) (i : nat)
  : PollReservationResponse :=
  nth (i - 1) [poll_status (Some "pending") []; last] (poll_status (Some "pending") []).

Lemma completed_empty_raises_index_error_witness :
  book_and_get_status sample_client
    (res_server [poll_status (Some "pending") []; poll_status (Some "completed") []])
    "s1" sample_payload =
    (inl IndexError,
     EBook sample_payload :: flat_map (pending_pair "s1") (seq 1 1) ++
       [EPollReservation "s1"]).
Proof.
  apply (completed_empty_raises_index_error sample_client _ "s1" sample_payload
           "{}" 1 (pending_then (poll_status (Some "completed") []))).
  - reflexivity.
  - intros i _. reflexivity.
  - intros i Hi. replace i with 1 by lia. reflexivity.
  - reflexivity.
  - reflexivity.
  - lia.
Defined.

Definition pending_completed (i : nat) : PollReservationResponse :=
  nth (i - 1) [poll_status (Some "Pending") [];
               poll_status (Some "COMPLETED") [mkReservation "C1" "R1"]]
      (poll_status (Some "pending") []).

Definition srv_pending_completed : Server :=
  mkServer (HOk (mkSearchResponse "s1"))
    (fun _ => HOk (mkPollSearchResponse [veh "r1" 10%Q] false))
    (HOk "{}") (fun i => HOk (pending_completed i)) (HOk "").

Lemma reservation_outcome_by_status_witness :
  (forall res rest,
      poll_reservation_status (pending_completed 2) = "completed" ->
      reservations (pending_completed 2) = res :: rest ->
      book_and_get_status sample_client srv_pending_completed "s1" sample_payload =
        (inr (Some (id res)),
         EBook sample_payload :: flat_map (pending_pair "s1") (seq 1 1) ++
           [EPollReservation "s1";
            LogReservationDone 2 (confirmation_number res) (id res)])) /\
  (poll_reservation_status (pending_completed 2) <> "pending" ->
   poll_reservation_status (pending_completed 2) <> "completed" ->
   book_and_get_status sample_client srv_pending_completed "s1" sample_payload =
     (inr None,
      EBook sample_payload :: flat_map (pending_pair "s1") (seq 1 1) ++
        [EPollReservation "s1";
         LogReservationFailed (poll_reservation_status (pending_completed 2))])).
Proof.
  apply (reservation_outcome_by_status sample_client srv_pending_completed "s1"
           sample_payload "{}" 1 pending_completed).
  - reflexivity.
  - intros i _. reflexivity.
  - intros i Hi. replace i with 1 by lia. reflexivity.
  - lia.
Defined.

Definition cfg_no_base_url : Config := mkConfig None (Some "k").

Lemma missing_config_fails_before_network_witness :
  (exists msg,
      MozioAPIClient_init cfg_no_base_url = (inl (EnvironmentVariableNotSet msg), []) /\
      result (main cfg_no_base_url srv_forever fake0)
        = inl (EnvironmentVariableNotSet msg)) /\
  count_calls is_network (trace (main cfg_no_base_url srv_forever fake0)) = 0.
Proof.
  apply (missing_config_fails_before_network cfg_no_base_url srv_forever fake0).
  left. reflexivity.
Defined.

Definition srv_with_book_body (b : Body) : Server :=
  mkServer (HOk (mkSearchResponse "s1"))
    (fun _ => HOk (mkPollSearchResponse [veh "r1" 10%Q] false))
    (HOk b) (fun i => HOk (pending_completed i)) (HOk "").

Definition srv_book_not_json (t : string) : Server :=
  mkServer (HOk (mkSearchResponse "s1"))
    (fun _ => HOk (mkPollSearchResponse [veh "r1" 10%Q] false))
    (HOkNotJson t) (fun i => HOk (pending_completed i)) (HOk "").

(** C8 counterexample: two runs that differ only in the body of the 2xx
    book response and see the same reservation polls end differently: a
    JSON body leads to polling and the reservation id "R1", a body that is
    not JSON raises a JSON decode error in [book]. *)
Lemma book_body_decodability_matters :
  (forall i, srv_poll_reservation (srv_with_book_body "{}") i =
             srv_poll_reservation (srv_book_not_json "ack") i) /\
  result (book_and_get_status sample_client (srv_with_book_body "{}")
            "s1" sample_payload) = inr (Some "R1") /\
  result (book_and_get_status sample_client (srv_book_not_json "ack")
            "s1" sample_payload) = inl (JSONDecodeError "ack").
Proof. split; [intros i; reflexivity | split; reflexivity]. Qed.

Lemma book_body_ignored_witness :
  book_and_get_status sample_client (srv_with_book_body "{}") "s1" sample_payload =
    book_and_get_status sample_client (srv_with_book_body "[1]") "s1" sample_payload /\
  book_and_get_status sample_client (srv_book_not_json "ack") "s1" sample_payload =
    (inl (JSONDecodeError "ack"), [EBook sample_payload]).
Proof.
  split.
  - apply (proj1 book_body_ignored sample_client (srv_with_book_body "{}")
             (srv_with_book_body "[1]") "s1" sample_payload "{}" "[1]");
      [reflexivity | reflexivity | intros i; reflexivity].
  - apply (proj2 book_body_ignored sample_client (srv_book_not_json "ack")
             "s1" sample_payload "ack"); reflexivity.
Defined.

Lemma cheapest_is_first_minimum_witness :
  exists pre v post,
    min_by_price price_samples = Some v /\ price_samples = pre ++ v :: post /\
    Forall (fun w => (price v < price w)%Q) pre /\
    Forall (fun w => (price v <= price w)%Q) post.
Proof.
  apply (proj1 cheapest_is_first_minimum price_samples). discriminate.
Defined.

Lemma cancel_never_returns_false_witness :
  (result (cancel sample_client srv_forever "R1") = inr true -> true = true) /\
  ~ In LogCancelFailed (trace (main cfg_ok srv_pending_completed fake0)).
Proof.
  split.
  - apply (proj1 cancel_never_returns_false sample_client srv_forever "R1" true).
  - apply (proj2 cancel_never_returns_false cfg_ok srv_pending_completed fake0).
Defined.

Lemma reservation_status_case_insensitive_witness :
  book_and_get_status sample_client srv_pending_completed "s1" sample_payload =
    book_and_get_status sample_client
      (res_server [poll_status (Some "pending") [];
                   poll_status (Some "completed") [mkReservation "C1" "R1"]])
      "s1" sample_payload /\
  book_and_get_status sample_client
    (res_server [poll_status (Some "PENDING") []; poll_status None []])
    "s1" sample_payload =
    (inr None,
     EBook sample_payload :: flat_map (pending_pair "s1") (seq 1 1) ++
       [EPollReservation "s1"; LogReservationFailed ""]).
Proof.
  split.
  - apply (proj1 reservation_status_case_insensitive).
    + reflexivity.
    + intros [|[|[|i]]]; cbn; auto.
  - apply (proj2 (proj2 (proj2 reservation_status_case_insensitive))
             sample_client
             (res_server [poll_status (Some "PENDING") []; poll_status None []])
             "s1" sample_payload "{}" 1
             (fun i => nth (i - 1) [poll_status (Some "PENDING") []; poll_status None []]
                         (mkPollReservationResponse (Some "pending") []))).
    + reflexivity.
    + intros i _. reflexivity.
    + intros i Hi. replace i with 1 by lia. reflexivity.
    + reflexivity.
    + lia.
Defined.

(** * Further properties of the module *)

Lemma request_err {A} (ev : event) (e : Body) :
  @request A ev (HNotOk e) = (inl (ApiError e), [ev]).
Proof. reflexivity. Qed.

Lemma request_ok_not_json {A} (ev : event) (t : string) :
  @request A ev (HOkNotJson t) = (inl (JSONDecodeError t), [ev]).
Proof. reflexivity. Qed.

Lemma request_not_ok_not_json {A} (ev : event) (t : string) :
  @request A ev (HNotOkNotJson t) = (inl (JSONDecodeError t), [ev]).
Proof. reflexivity. Qed.

Ltac request_fail :=
  rewrite ?request_err, ?request_ok_not_json, ?request_not_ok_not_json, bind_inl.

Ltac request_fail_in H :=
  rewrite ?request_err, ?request_ok_not_json, ?request_not_ok_not_json, bind_inl in H.

(** ** The base URL of the client *)

Lemma list_ascii_of_string_append s1 s2 :
  list_ascii_of_string (s1 ++ s2)%string =
    list_ascii_of_string s1 ++ list_ascii_of_string s2.
Proof. induction s1 as [|c s1 IH]; cbn; [reflexivity|]. rewrite IH. reflexivity. Qed.

Lemma drop_slashes_idem l : drop_slashes (drop_slashes l) = drop_slashes l.
Proof.
  induction l as [|c l IH]; [reflexivity|]. cbn.
  destruct (Ascii.eqb c "/"%char) eqn:E; [exact IH|]. cbn. rewrite E. reflexivity.
Qed.

Lemma rstrip_slash_append_slash s :
  rstrip_slash (rstrip_slash s ++ "/")%string = rstrip_slash s.
Proof.
  unfold rstrip_slash at 1. rewrite list_ascii_of_string_append. cbn [list_ascii_of_string].
  rewrite rev_app_distr. cbn [rev app drop_slashes Ascii.eqb Bool.eqb].
  unfold rstrip_slash. rewrite list_ascii_of_string_of_list_ascii, rev_involutive.
  rewrite drop_slashes_idem. reflexivity.
Qed.

(** X1: with both variables set, [__init__] succeeds without any call, its
    [base_url] is the configured URL with every trailing "/" replaced by a
    single one, normalising that [base_url] again changes nothing, and the
    [API-KEY] header carries the configured key. *)
Theorem client_base_url_normalised (u k : string)
  (Hu : truthy (Some u) = true) (Hk : truthy (Some k) = true) :
  exists c,
    MozioAPIClient_init (mkConfig (Some u) (Some k)) = (inr c, []) /\
    base_url c = (rstrip_slash u ++ "/")%string /\
    (rstrip_slash (base_url c) ++ "/")%string = base_url c /\
    api_key_header c = k.
Proof.
  unfold MozioAPIClient_init. cbn [MOZIO_API_BASE_URL MOZIO_API_KEY].
  rewrite Hu, Hk. cbn [negb].
  eexists. split; [reflexivity|]. cbn [base_url api_key_header].
  split; [reflexivity|]. split; [|reflexivity].
  rewrite rstrip_slash_append_slash. reflexivity.
Qed.

Lemma client_base_url_normalised_witness :
  exists c,
    MozioAPIClient_init (mkConfig (Some "https://api.example.com/v2///") (Some "k"))
      = (inr c, []) /\
    base_url c = (rstrip_slash "https://api.example.com/v2///" ++ "/")%string /\
    (rstrip_slash (base_url c) ++ "/")%string = base_url c /\
    api_key_header c = "k".
Proof.
  apply client_base_url_normalised; reflexivity.
Defined.

(** ** HTTP errors: raised at once, never retried *)


Lemma bind_ext {A B} (m : M A) (k1 k2 : A -> M B) :
  (forall a, k1 a = k2 a) -> bind m k1 = bind m k2.
Proof. intros H. destruct m as [[e|a] t]; [reflexivity|]. cbn. rewrite H. reflexivity. Qed.

(** The script after a successful [MozioAPIClient()]. *)
Lemma main_after_init cfg srv fake mozio :
  MozioAPIClient_init cfg = (inr mozio, []) ->
  main cfg srv fake =
    bind (search_and_gather_results mozio srv) (fun p =>
      let (sid, all_search_results) := p in
      match min_by_price all_search_results with
      | None => raise NoResults
      | Some cheapest_vehicle =>
          reservation_id <- book_and_get_status mozio srv sid
            (mkBookPayload (fake_first_name fake) (fake_last_name fake)
               (fake_email fake) (result_id cheapest_vehicle) sid) ;;
          cancellation_branch mozio srv reservation_id
      end).
Proof.
  intros Hi. unfold main, workflow_until_booking.
  change (inr mozio, @nil event) with (ret mozio) in Hi.
  rewrite Hi, bind_ret, bind_assoc. apply bind_ext. intros [sid all].
  destruct (min_by_price all) as [v|]; [|reflexivity].
  rewrite bind_assoc. apply bind_ext. intros rid. rewrite bind_ret. reflexivity.
Qed.






(** ** How many calls a run makes *)

Definition is_search (e : event) : bool :=
  match e with ESearch => true | _ => false end.
Definition is_book (e : event) : bool :=
  match e with EBook _ => true | _ => false end.
Definition is_sleep (e : event) : bool :=
  match e with ESleep _ => true | _ => false end.

Lemma count_calls_cons p e t :
  count_calls p (e :: t) = (if p e then 1 else 0) + count_calls p t.
Proof. unfold count_calls. cbn. destruct (p e); reflexivity. Qed.

Lemma count_trace_bind {A B} p (m : M A) (k : A -> M B) a b n :
  count_calls p (trace m) <= a ->
  (forall x, result m = inr x -> count_calls p (trace (k x)) <= b) ->
  a + b <= n ->
  count_calls p (trace (bind m k)) <= n.
Proof.
  intros Hm Hk Hn. destruct m as [[e|x] t]; [cbn in *; lia|].
  rewrite bind_inr. cbn [trace snd]. rewrite count_calls_app.
  cbn [trace snd] in Hm. specialize (Hk x eq_refl). lia.
Qed.

Lemma count_calls_nil p : count_calls p [] = 0.
Proof. reflexivity. Qed.

Ltac count_simpl :=
  rewrite ?count_calls_app, ?count_calls_cons, ?count_calls_nil in *.

Section LoopCounts.
Variables (self : MozioAPIClient) (srv : Server) (sid : string).
Variables (p : event -> bool) (k : nat).

Lemma search_loop_count :
  count_calls p [EPollSearch sid; ESleep 2] <= k ->
  (forall n, count_calls p [EPollSearch sid; LogSearchDone n] <= k) ->
  forall fuel c acc,
    count_calls p (trace (search_poll_loop self srv sid fuel c acc)) <= fuel * k.
Proof.
  intros Hsleep Hlog. induction fuel as [|fuel IH]; intros c acc; [cbn; lia|].
  cbn [search_poll_loop]. unfold poll_search.
  destruct (srv_poll_search srv c) as [r|t|e|t];
    [|request_fail; cbn [trace snd]; count_simpl; lia ..].
  rewrite request_ok, bind_inr. cbn zeta. cbn [trace snd].
  destruct (negb (more_coming r)).
  - rewrite bind_emit. cbn [trace snd ret].
    specialize (Hlog c). count_simpl. lia.
  - rewrite bind_emit. cbn [trace snd].
    specialize (IH (S c) (acc ++ results r)). count_simpl. lia.
Qed.

Lemma reservation_loop_count :
  count_calls p [EPollReservation sid; ESleep 2] <= k ->
  (forall n cn rid,
      count_calls p [EPollReservation sid; LogReservationDone n cn rid] <= k) ->
  (forall st, count_calls p [EPollReservation sid; LogReservationFailed st] <= k) ->
  forall fuel c,
    count_calls p (trace (reservation_poll_loop self srv sid fuel c)) <= fuel * k.
Proof.
  intros Hsleep Hdone Hfail. induction fuel as [|fuel IH]; intros c; [cbn; lia|].
  cbn [reservation_poll_loop]. unfold poll_reservation.
  destruct (srv_poll_reservation srv c) as [r|t|e|t];
    [|request_fail; cbn [trace snd]; count_simpl; lia ..].
  rewrite request_ok, bind_inr. cbn zeta. cbn [trace snd].
  destruct (String.eqb (poll_reservation_status r) "pending").
  - rewrite bind_emit. cbn [trace snd].
    specialize (IH (S c)). count_simpl. lia.
  - destruct (String.eqb (poll_reservation_status r) "completed").
    + destruct (reservations r) as [|res rest].
      * cbn [trace snd raise]. count_simpl. lia.
      * rewrite bind_emit. cbn [trace snd ret].
        specialize (Hdone c (confirmation_number res) (id res)). count_simpl. lia.
    + rewrite bind_emit. cbn [trace snd ret].
      specialize (Hfail (poll_reservation_status r)). count_simpl. lia.
Qed.
End LoopCounts.

Lemma trace_request {A} ev (a : http A) : trace (request ev a) = [ev].
Proof. destruct a; reflexivity. Qed.

Section PhaseCounts.
Variables (p : event -> bool) (k : nat).

Lemma search_and_gather_count s self srv :
  count_calls p [ESearch] <= s ->
  (forall sid, count_calls p [EPollSearch sid; ESleep 2] <= k) ->
  (forall sid n, count_calls p [EPollSearch sid; LogSearchDone n] <= k) ->
  count_calls p (trace (search_and_gather_results self srv)) <= s + 20 * k.
Proof.
  intros Hs Hsleep Hlog. unfold search_and_gather_results, search.
  apply (count_trace_bind p _ _ s (20 * k)); [rewrite trace_request; exact Hs| |lia].
  intros sr _. apply (count_trace_bind p _ _ (20 * k) 0); [| |lia].
  - apply (search_loop_count self srv _ p k (Hsleep _) (Hlog _) 20).
  - intros; cbn; lia.
Qed.

Lemma book_and_get_status_count s self srv sid payload :
  count_calls p [EBook payload] <= s ->
  count_calls p [EPollReservation sid; ESleep 2] <= k ->
  (forall n cn rid,
      count_calls p [EPollReservation sid; LogReservationDone n cn rid] <= k) ->
  (forall st, count_calls p [EPollReservation sid; LogReservationFailed st] <= k) ->
  count_calls p (trace (book_and_get_status self srv sid payload)) <= s + 20 * k.
Proof.
  intros Hb Hsleep Hdone Hfail. unfold book_and_get_status, book.
  apply (count_trace_bind p _ _ s (20 * k)); [rewrite trace_request; exact Hb| |lia].
  intros _ _. exact (reservation_loop_count self srv sid p k Hsleep Hdone Hfail 20 1).
Qed.

Lemma cancellation_branch_count c mozio srv rid :
  count_calls p [LogSkipCancel] <= c ->
  (forall r, count_calls p [ECancel r; LogCancelDone] <= c) ->
  count_calls p (trace (cancellation_branch mozio srv rid)) <= c.
Proof.
  intros Hskip Hdone. unfold cancellation_branch.
  destruct rid as [r|]; [|exact Hskip].
  destruct (truthy (Some r)); [|exact Hskip].
  destruct (cancel_result mozio srv r) as [Hr Ht].
  destruct (cancel mozio srv r) as [[e|bc] t]; cbn in Hr, Ht; subst t.
  - specialize (Hdone r). rewrite bind_inl. cbn [trace snd]. count_simpl. lia.
  - destruct (srv_cancel srv); try discriminate; injection Hr as Hbc; subst bc;
      rewrite bind_inr; cbn [trace snd emit]; exact (Hdone r).
Qed.
End PhaseCounts.

Lemma main_count p a b c cfg srv fake :
  (forall self, count_calls p (trace (search_and_gather_results self srv)) <= a) ->
  (forall self sid payload,
      count_calls p (trace (book_and_get_status self srv sid payload)) <= b) ->
  (forall mozio rid, count_calls p (trace (cancellation_branch mozio srv rid)) <= c) ->
  count_calls p (trace (main cfg srv fake)) <= a + b + c.
Proof.
  intros Ha Hb Hc. unfold main.
  apply (count_trace_bind p _ _ (a + b) c); [| |lia].
  - unfold workflow_until_booking.
    apply (count_trace_bind p _ _ 0 (a + b)); [| |lia].
    + unfold MozioAPIClient_init.
      destruct (negb (truthy (MOZIO_API_BASE_URL cfg))),
               (negb (truthy (MOZIO_API_KEY cfg))); cbn; lia.
    + intros mozio _. apply (count_trace_bind p _ _ a b); [apply Ha| |lia].
      intros [sid all] _. destruct (min_by_price all) as [v|]; [|cbn; lia].
      apply (count_trace_bind p _ _ b 0); [apply Hb| |lia].
      intros; cbn; lia.
  - intros [mozio rid] _. apply Hc.
Qed.

(** X5: whatever the server answers, one run of the script makes at most
    one search call, 20 search polls, one booking call, 20 reservation polls
    and one cancellation call, and sleeps at most 40 times. *)
Theorem main_call_budget cfg srv fake :
  count_calls is_search (trace (main cfg srv fake)) <= 1 /\
  count_calls is_poll_search (trace (main cfg srv fake)) <= 20 /\
  count_calls is_book (trace (main cfg srv fake)) <= 1 /\
  count_calls is_poll_reservation (trace (main cfg srv fake)) <= 20 /\
  count_calls is_cancel (trace (main cfg srv fake)) <= 1 /\
  count_calls is_sleep (trace (main cfg srv fake)) <= 40.
Proof.
  repeat split.
  - apply (main_count is_search 1 0 0); intros.
    + apply (search_and_gather_count is_search 0 1); intros; cbn; lia.
    + apply (book_and_get_status_count is_search 0 0); intros; cbn; lia.
    + apply cancellation_branch_count; intros; cbn; lia.
  - apply (main_count is_poll_search 20 0 0); intros.
    + apply (search_and_gather_count is_poll_search 1 0); intros; cbn; lia.
    + apply (book_and_get_status_count is_poll_search 0 0); intros; cbn; lia.
    + apply cancellation_branch_count; intros; cbn; lia.
  - apply (main_count is_book 0 1 0); intros.
    + apply (search_and_gather_count is_book 0 0); intros; cbn; lia.
    + apply (book_and_get_status_count is_book 0 1); intros; cbn; lia.
    + apply cancellation_branch_count; intros; cbn; lia.
  - apply (main_count is_poll_reservation 0 20 0); intros.
    + apply (search_and_gather_count is_poll_reservation 0 0); intros; cbn; lia.
    + apply (book_and_get_status_count is_poll_reservation 1 0); intros; cbn; lia.
    + apply cancellation_branch_count; intros; cbn; lia.
  - apply (main_count is_cancel 0 0 1); intros.
    + apply (search_and_gather_count is_cancel 0 0); intros; cbn; lia.
    + apply (book_and_get_status_count is_cancel 0 0); intros; cbn; lia.
    + apply cancellation_branch_count; intros; cbn; lia.
  - apply (main_count is_sleep 20 20 0); intros.
    + apply (search_and_gather_count is_sleep 1 0); intros; cbn; lia.
    + apply (book_and_get_status_count is_sleep 1 0); intros; cbn; lia.
    + apply cancellation_branch_count; intros; cbn; lia.
Qed.

(** ** The workflow driver around the booking *)

Lemma trace_bind {A B} (m : M A) (k : A -> M B) :
  trace (bind m k) =
    trace m ++ match result m with inr a => trace (k a) | inl _ => [] end.
Proof.
  destruct m as [[e|a] t]; cbn.
  - rewrite app_nil_r. reflexivity.
  - destruct (k a). reflexivity.
Qed.


(** X7: when the search phase ends with no vehicle at all, the script raises
    [NoResults] and makes no call after the search phase (no booking). *)
Theorem no_results_stops_before_booking cfg srv fake mozio sid
  (Hinit : MozioAPIClient_init cfg = (inr mozio, []))
  (Hsearch : result (search_and_gather_results mozio srv) = inr (sid, [])) :
  main cfg srv fake =
    (inl NoResults, trace (search_and_gather_results mozio srv)).
Proof.
  rewrite (main_after_init cfg srv fake mozio Hinit).
  destruct (search_and_gather_results mozio srv) as [r t].
  cbn in Hsearch. subst r. rewrite bind_inr. cbn. rewrite app_nil_r. reflexivity.
Qed.

(** X8: when the search phase gathers vehicles, the call right after it is
    the booking POST, whose payload carries the cheapest vehicle's
    [result_id], the search id and the Faker identity. *)
Theorem books_cheapest_vehicle cfg srv fake mozio sid all v
  (Hinit : MozioAPIClient_init cfg = (inr mozio, []))
  (Hsearch : result (search_and_gather_results mozio srv) = inr (sid, all))
  (Hmin : min_by_price all = Some v) :
  exists t,
    trace (main cfg srv fake) =
      trace (search_and_gather_results mozio srv) ++
      EBook (mkBookPayload (fake_first_name fake) (fake_last_name fake)
               (fake_email fake) (result_id v) sid) :: t.
Proof.
  rewrite (main_after_init cfg srv fake mozio Hinit), trace_bind, Hsearch.
  cbn beta iota. rewrite Hmin, trace_bind.
  unfold book_and_get_status at 1. rewrite trace_bind. unfold book at 1.
  rewrite trace_request. eexists. reflexivity.
Qed.

(** ** What a successful polling loop has seen *)

Section Provenance.
Variables (self : MozioAPIClient) (srv : Server) (sid : string).

Definition pending_before (c i : nat) : Prop :=
  forall j, c <= j < i -> exists r, srv_poll_reservation srv j = HOk r /\
                             poll_reservation_status r = "pending".

Lemma pending_before_extend c i r :
  srv_poll_reservation srv c = HOk r -> poll_reservation_status r = "pending" ->
  pending_before (S c) i -> pending_before c i.
Proof.
  intros Hp Hs H j Hj. destruct (Nat.eq_dec j c) as [->|Hne]; [eauto|].
  apply H. lia.
Qed.

Lemma reservation_loop_outcome : forall fuel c out,
  result (reservation_poll_loop self srv sid fuel c) = inr out ->
  exists i r, c <= i < c + fuel /\ pending_before c i /\
    srv_poll_reservation srv i = HOk r /\
    match out with
    | Some rid => poll_reservation_status r = "completed" /\
                  exists res rest, reservations r = res :: rest /\ id res = rid
    | None => poll_reservation_status r <> "pending" /\
              poll_reservation_status r <> "completed"
    end.
Proof.
  induction fuel as [|fuel IH]; intros c out H; [discriminate|].
  cbn [reservation_poll_loop] in H. unfold poll_reservation in H.
  destruct (srv_poll_reservation srv c) as [r|t|e|t] eqn:E;
    [|request_fail_in H; discriminate ..].
  rewrite request_ok, bind_inr in H. cbn zeta in H. cbn [result fst] in H.
  destruct (String.eqb (poll_reservation_status r) "pending") eqn:Ep.
  - rewrite bind_emit in H. cbn [result fst] in H.
    destruct (IH (S c) out H) as [i [r' [Hi [Hpre [Hp Hout]]]]].
    apply String.eqb_eq in Ep.
    exists i, r'. split; [lia|]. split; [|split; assumption].
    exact (pending_before_extend c i r E Ep Hpre).
  - apply String.eqb_neq in Ep.
    destruct (String.eqb (poll_reservation_status r) "completed") eqn:Ec.
    + apply String.eqb_eq in Ec.
      destruct (reservations r) as [|res rest] eqn:Er; [discriminate|].
      rewrite bind_emit in H. cbn in H. injection H as <-.
      exists c, r. split; [lia|]. split; [intros j Hj; lia|].
      split; [exact E|]. split; [exact Ec|]. eauto.
    + apply String.eqb_neq in Ec.
      rewrite bind_emit in H. cbn in H. injection H as <-.
      exists c, r. split; [lia|]. split; [intros j Hj; lia|]. auto.
Qed.
End Provenance.

(** X9: a reservation id returned by [book_and_get_status] comes from a
    poll i <= 20 whose lowercased status is "completed", every earlier poll
    being "pending": it is the [id] of the first entry of that poll's
    [reservations].  A [None] comes from a poll i <= 20, after only
    "pending" polls, whose lowercased status is neither "pending" nor
    "completed". *)
Theorem reservation_outcome_provenance self srv sid payload out
  (Hres : result (book_and_get_status self srv sid payload) = inr out) :
  exists i r, 1 <= i <= 20 /\ pending_before srv 1 i /\
    srv_poll_reservation srv i = HOk r /\
    match out with
    | Some rid => poll_reservation_status r = "completed" /\
                  exists res rest, reservations r = res :: rest /\ id res = rid
    | None => poll_reservation_status r <> "pending" /\
              poll_reservation_status r <> "completed"
    end.
Proof.
  unfold book_and_get_status, book in Hres.
  destruct (srv_book srv) as [b|t|e|t]; [|request_fail_in Hres; discriminate ..].
  rewrite request_ok, bind_inr in Hres. cbn [result fst] in Hres.
  destruct (reservation_loop_outcome self srv sid POLL_MAX_REQUESTS 1 out Hres)
    as [i [r [Hi H]]].
  exists i, r. unfold POLL_MAX_REQUESTS in Hi. split; [lia|]. exact H.
Qed.

Section SearchProvenance.
Variables (self : MozioAPIClient) (srv : Server) (sid : string).

Lemma search_loop_outcome : forall fuel c acc all,
  result (search_poll_loop self srv sid fuel c acc) = inr all ->
  exists n, c <= n < c + fuel /\
    (forall j, c <= j <= n -> srv_poll_search srv j = HOk (poll_search_body srv j)) /\
    (forall j, c <= j < n -> more_coming (poll_search_body srv j) = true) /\
    more_coming (poll_search_body srv n) = false /\
    all = acc ++ concat (map (fun j => results (poll_search_body srv j))
                             (seq c (S (n - c)))).
Proof.
  induction fuel as [|fuel IH]; intros c acc all H; [discriminate|].
  cbn [search_poll_loop] in H. unfold poll_search in H.
  destruct (srv_poll_search srv c) as [r|t|e|t] eqn:E;
    [|request_fail_in H; discriminate ..].
  assert (Hb : poll_search_body srv c = r) by (unfold poll_search_body; rewrite E; reflexivity).
  rewrite request_ok, bind_inr in H. cbn zeta in H. cbn [result fst] in H.
  destruct (more_coming r) eqn:Em; cbn [negb] in H.
  - rewrite bind_emit in H. cbn [result fst] in H.
    destruct (IH (S c) (acc ++ results r) all H)
      as [n [Hn [Hok [Hmore [Hlast Hall]]]]].
    exists n. split; [lia|]. split; [|split; [|split; [exact Hlast|]]].
    + intros j Hj. destruct (Nat.eq_dec j c) as [->|Hne]; [rewrite Hb; exact E|].
      apply Hok. lia.
    + intros j Hj. destruct (Nat.eq_dec j c) as [->|Hne]; [rewrite Hb; exact Em|].
      apply Hmore. lia.
    + rewrite Hall.
      assert (Hseq : seq c (S (n - c)) = c :: seq (S c) (S (n - S c))).
      { replace (S (n - c)) with (S (S (n - S c))) by lia. reflexivity. }
      rewrite Hseq. cbn [map concat]. rewrite Hb, app_assoc. reflexivity.
  - rewrite bind_emit in H. cbn in H. injection H as <-.
    exists c. split; [lia|]. split; [|split; [|split]].
    + intros j Hj. replace j with c by lia. rewrite Hb. exact E.
    + intros j Hj. lia.
    + rewrite Hb. exact Em.
    + rewrite Nat.sub_diag. cbn. rewrite Hb, app_nil_r. reflexivity.
Qed.
End SearchProvenance.

(** X10: when [search_and_gather_results] returns (sid, all), sid is the
    [search_id] of the search answer, and for some n <= 20 polls 1..n were
    all answered, with [more_coming] true before n and false at n, and all
    is the concatenation of the [results] of polls 1..n in order. *)
Theorem search_result_provenance self srv sid all
  (Hres : result (search_and_gather_results self srv) = inr (sid, all)) :
  exists sr n,
    srv_search srv = HOk sr /\ sid = search_id sr /\ 1 <= n <= 20 /\
    (forall j, 1 <= j <= n -> srv_poll_search srv j = HOk (poll_search_body srv j)) /\
    (forall j, 1 <= j < n -> more_coming (poll_search_body srv j) = true) /\
    more_coming (poll_search_body srv n) = false /\
    all = concat (map (fun j => results (poll_search_body srv j)) (seq 1 n)).
Proof.
  unfold search_and_gather_results, search in Hres.
  destruct (srv_search srv) as [sr|t|e|t]; [|request_fail_in Hres; discriminate ..].
  rewrite request_ok, bind_inr in Hres. cbn zeta in Hres. cbn [result fst] in Hres.
  destruct (search_poll_loop self srv (search_id sr) POLL_MAX_REQUESTS 1 [])
    as [[e|all'] t] eqn:E; [discriminate|].
  rewrite bind_inr in Hres. cbn in Hres. injection Hres as <- <-.
  destruct (search_loop_outcome self srv (search_id sr) POLL_MAX_REQUESTS 1 [] all')
    as [n [Hn [Hok [Hmore [Hlast Hall]]]]]; [rewrite E; reflexivity|].
  exists sr, n. unfold POLL_MAX_REQUESTS in Hn.
  repeat split; auto; try lia.
  rewrite Hall. replace (S (n - 1)) with n by lia. reflexivity.
Qed.

(** ** Witnesses of the further properties *)









Definition srv_no_results : Server :=
  mkServer (HOk (mkSearchResponse "s1"))
    (fun _ => HOk (mkPollSearchResponse [] false)) (HOk "{}")
    (fun _ => HOk (poll_status (Some "pending") [])) (HOk "").

Lemma no_results_stops_before_booking_witness :
  main cfg_ok srv_no_results fake0 =
    (inl NoResults, trace (search_and_gather_results sample_client srv_no_results)).
Proof.
  apply (no_results_stops_before_booking cfg_ok srv_no_results fake0
           sample_client "s1"); reflexivity.
Defined.

Lemma books_cheapest_vehicle_witness :
  exists t,
    trace (main cfg_ok srv_three fake0) =
      trace (search_and_gather_results sample_client srv_three) ++
      EBook (mkBookPayload (fake_first_name fake0) (fake_last_name fake0)
               (fake_email fake0) (result_id (veh "r" 1%Q)) "s1") :: t.
Proof.
  apply (books_cheapest_vehicle cfg_ok srv_three fake0 sample_client "s1"
           (concat (map (fun i => results (three_polls i)) (seq 1 3)))).
  - reflexivity.
  - reflexivity.
  - reflexivity.
Defined.

Lemma reservation_outcome_provenance_witness :
  exists i r, 1 <= i <= 20 /\ pending_before srv_pending_completed 1 i /\
    srv_poll_reservation srv_pending_completed i = HOk r /\
    poll_reservation_status r = "completed" /\
    exists res rest, reservations r = res :: rest /\ id res = "R1".
Proof.
  apply (reservation_outcome_provenance sample_client srv_pending_completed "s1"
           sample_payload (Some "R1")).
  reflexivity.
Defined.

Lemma search_result_provenance_witness :
  exists sr n,
    srv_search srv_three = HOk sr /\ "s1" = search_id sr /\ 1 <= n <= 20 /\
    (forall j, 1 <= j <= n ->
       srv_poll_search srv_three j = HOk (poll_search_body srv_three j)) /\
    (forall j, 1 <= j < n -> more_coming (poll_search_body srv_three j) = true) /\
    more_coming (poll_search_body srv_three n) = false /\
    concat (map (fun i => results (three_polls i)) (seq 1 3)) =
      concat (map (fun j => results (poll_search_body srv_three j)) (seq 1 n)).
Proof.
  apply (search_result_provenance sample_client srv_three).
  reflexivity.
Defined.
